(** * PGP key export engine (go/engine/pgp_export_key.go)

    A shallow embedding of [PGPKeyExportEngine] and of its [Run],
    [exportPublic], [exportSecret], [loadMe], [pushRes] and [Results]
    methods, followed by the properties of the export operation.

    The engine is a Go struct mutated through a pointer receiver: it is
    modelled by explicit state passing in a small monad whose state is the
    engine together with the chronological list of the calls made to the
    collaborators (logger, identity loader, key store, armoring).  A nil
    dereference is an outcome of its own, [Panicked]. *)

From Stdlib Require Import List String Ascii Bool Arith Lia.
Import ListNotations.
Open Scope string_scope.
Open Scope list_scope.

(** ** Go's [error] values

    [error] is an interface; the engine distinguishes the dynamic types
    [libkb.NoSecretKeyError] and [libkb.BadKeyError], builds one error with
    [fmt.Errorf], and passes every other collaborator error through. *)
Inductive error : Type :=
| NoSecretKeyError
| BadKeyError (Msg : string)
| errorString (s : string)
| CollaboratorError (what : string).

(** The type assertion of [err] to [libkb.NoSecretKeyError]. *)
Definition isNoSecretKeyError (err : error) : bool :=
  match err with
  | NoSecretKeyError => true
  | _ => false
  end.

(** The type assertion of [err] to [libkb.BadKeyError], used by the properties. *)
Definition isBadKeyError (err : error) : bool :=
  match err with
  | BadKeyError _ => true
  | _ => false
  end.

(** [fmt.Errorf] applied to a format without verbs. *)
Definition fmt_Errorf (format : string) : error := errorString format.

(** ** Protocol types (package keybase1) *)
Module keybase1.

Record PGPQuery : Type := {
  Secret : bool;
  Query : string;
  ExactMatch : bool
}.

Record KeyInfo : Type := {
  Fingerprint : string;
  Key : string;
  Desc : string
}.

Record PgpExportArg : Type := { Options : PGPQuery }.
Record PgpExportByKIDArg : Type := { ByKIDOptions : PGPQuery }.
Record PgpExportByFingerprintArg : Type := { ByFingerprintOptions : PGPQuery }.

End keybase1.

(** ** The query type selector *)
Inductive queryType : Type :=
| unset
| fingerprint
| kid
| either.

(** ** Types of package libkb that the engine only passes around *)
Class LibkbTypes : Type := {
  PgpFingerprint : Type;
  KID : Type;
  LoginContext : Type;
  SecretUI : Type;
  SecretKeyType : Type;
  PGPKeyType : SecretKeyType
}.

Section Model.

Context {T : LibkbTypes}.

(** A [*libkb.PgpKeyBundle], seen through the four accessors the engine
    calls on it.  [GetFingerprintP] returns a pointer ([None] is nil);
    [Encode] returns the Go pair [(string, error)]. *)
Record PgpKeyBundle : Type := {
  GetFingerprintP : option PgpFingerprint;
  Encode : string * option error;
  GetKid : KID;
  VerboseDescription : string
}.

(** A non-nil [libkb.GenericKey] interface value: its dynamic type is
    either [*PgpKeyBundle] or some other implementation, of which only the
    fingerprint accessor is observed. *)
Inductive GenericKey : Type :=
| GK_PgpKeyBundle (k : PgpKeyBundle)
| GK_other (fp : option PgpFingerprint).

Definition GenericKey_GetFingerprintP (key : GenericKey) : option PgpFingerprint :=
  match key with
  | GK_PgpKeyBundle k => GetFingerprintP k
  | GK_other fp => fp
  end.

(** The type assertion of [key] to a pointer to [libkb.PgpKeyBundle]. *)
Definition isPgpKeyBundle (key : GenericKey) : bool :=
  match key with
  | GK_PgpKeyBundle _ => true
  | GK_other _ => false
  end.

(** A [*libkb.SKB]; [RawUnlockedKey] returns a byte slice, nil being [None]. *)
Record SKB : Type := {
  RawUnlockedKey : option (list Byte.byte)
}.

(** A [*libkb.User], seen through [GetActivePgpKeys]. *)
Record User : Type := {
  GetActivePgpKeys : bool -> list PgpKeyBundle
}.

Record LoadUserArg : Type := {
  PublicKeyOptional : bool
}.

Record SecretKeyArg : Type := {
  Me : option User;
  KeyType : SecretKeyType;
  KeyQuery : string;
  ExactMatch : bool
}.

(** [Keyrings.GetSecretKeyWithPrompt] returns the Go triple
    [(key GenericKey, skb *SKB, err error)]. *)
Record Keyrings : Type := {
  GetSecretKeyWithPrompt :
    LoginContext -> SecretKeyArg -> SecretUI -> string ->
    option GenericKey * option SKB * option error
}.

Record GlobalContext : Type := {
  G_Keyrings : Keyrings
}.

(** The engine [Context]: the two fields [exportSecret] reads. *)
Record Context : Type := {
  ctxLoginContext : LoginContext;
  ctxSecretUI : SecretUI
}.

(** Functions of package libkb called by the engine. *)
Class LibkbOps : Type := {
  PgpFingerprint_String : PgpFingerprint -> string;
  PgpFingerprint_Match : PgpFingerprint -> string -> bool -> bool;
  KID_Match : KID -> string -> bool -> bool;
  KeyMatchesQuery : GenericKey -> string -> bool -> bool;
  LoadMe : LoadUserArg -> option User * option error;
  PgpKeyRawToArmored : list Byte.byte -> bool -> string * option error;
  ErrToOk : option error -> string
}.

Context {O : LibkbOps}.

(** ** The engine *)
Record PGPKeyExportEngine : Type := {
  Contextified : GlobalContext;
  arg : keybase1.PGPQuery;
  qtype : queryType;
  res : list keybase1.KeyInfo;
  me : option User
}.

Definition G (e : PGPKeyExportEngine) : GlobalContext := Contextified e.

Definition Results (e : PGPKeyExportEngine) : list keybase1.KeyInfo := res e.

Definition NewPGPKeyExportEngine
    (a : keybase1.PgpExportArg) (g : GlobalContext) : PGPKeyExportEngine :=
  {| Contextified := g; arg := keybase1.Options a; qtype := either;
     res := []; me := None |}.

Definition NewPGPKeyExportByKIDEngine
    (a : keybase1.PgpExportByKIDArg) (g : GlobalContext) : PGPKeyExportEngine :=
  {| Contextified := g; arg := keybase1.ByKIDOptions a; qtype := kid;
     res := []; me := None |}.

Definition NewPGPKeyExportByFingerprintEngine
    (a : keybase1.PgpExportByFingerprintArg) (g : GlobalContext) : PGPKeyExportEngine :=
  {| Contextified := g; arg := keybase1.ByFingerprintOptions a; qtype := fingerprint;
     res := []; me := None |}.

Definition set_res (r : list keybase1.KeyInfo) (e : PGPKeyExportEngine) : PGPKeyExportEngine :=
  {| Contextified := Contextified e; arg := arg e; qtype := qtype e;
     res := r; me := me e |}.

Definition set_me (u : option User) (e : PGPKeyExportEngine) : PGPKeyExportEngine :=
  {| Contextified := Contextified e; arg := arg e; qtype := qtype e;
     res := res e; me := u |}.

(** ** Calls to the collaborators, in the order they are made *)
Inductive Event : Type :=
| EvDebug (format : string) (args : list string)
| EvLoadMe (a : LoadUserArg)
| EvGetSecretKeyWithPrompt (ska : SecretKeyArg) (reason : string)
| EvPgpKeyRawToArmored (raw : list Byte.byte) (priv : bool).

Record Machine : Type := {
  eng : PGPKeyExportEngine;
  trace : list Event
}.

Inductive Res (A : Type) : Type :=
| Returned (a : A) (m : Machine)
| Panicked (m : Machine).

Arguments Returned {A} a m.
Arguments Panicked {A} m.

Definition M (A : Type) : Type := Machine -> Res A.

Definition ret {A : Type} (a : A) : M A := fun m => Returned a m.

Definition bind {A B : Type} (c : M A) (k : A -> M B) : M B :=
  fun m =>
    match c m with
    | Returned a m' => k a m'
    | Panicked m' => Panicked m'
    end.

Definition panic {A : Type} : M A := fun m => Panicked m.

Definition get_engine : M PGPKeyExportEngine := fun m => Returned (eng m) m.

Definition modify_engine (f : PGPKeyExportEngine -> PGPKeyExportEngine) : M unit :=
  fun m => Returned tt {| eng := f (eng m); trace := trace m |}.

Definition emit (ev : Event) : M unit :=
  fun m => Returned tt {| eng := eng m; trace := trace m ++ [ev] |}.

(** The machine left by a computation, whichever way it ended. *)
Definition finalMachine {A : Type} (r : Res A) : Machine :=
  match r with
  | Returned _ m => m
  | Panicked m => m
  end.

End Model.

Arguments Returned {T A} a m.
Arguments Panicked {T A} m.

Declare Scope engine_scope.
Delimit Scope engine_scope with engine.
Notation "x <- c ;; k" := (bind c (fun x => k))
  (at level 61, c at next level, right associativity) : engine_scope.
Notation "c ;; k" := (bind c (fun _ => k))
  (at level 61, right associativity) : engine_scope.

Open Scope engine_scope.

Section Engine.

Context {T : LibkbTypes} {O : LibkbOps}.

(** ** Collaborator calls, each recorded in the trace *)

(** [e.G().Log.Debug(format, args...)]. *)
Definition Log_Debug (format : string) (args : list string) : M unit :=
  emit (EvDebug format args).

Definition call_LoadMe (a : LoadUserArg) : M (option User * option error) :=
  emit (EvLoadMe a) ;; ret (LoadMe a).

Definition call_GetSecretKeyWithPrompt
    (kr : Keyrings) (lctx : LoginContext) (ska : SecretKeyArg)
    (ui : SecretUI) (reason : string)
    : M (option GenericKey * option SKB * option error) :=
  emit (EvGetSecretKeyWithPrompt ska reason) ;;
  ret (GetSecretKeyWithPrompt kr lctx ska ui reason).

Definition call_PgpKeyRawToArmored (raw : list Byte.byte) (priv : bool)
    : M (string * option error) :=
  emit (EvPgpKeyRawToArmored raw priv) ;; ret (PgpKeyRawToArmored raw priv).

(** ** Methods of the engine *)

(** [pushRes]: append one [KeyInfo] to [e.res]. *)
Definition pushRes (fp : PgpFingerprint) (key : string) (desc : string) : M unit :=
  modify_engine (fun e =>
    set_res (res e ++ [ {| keybase1.Fingerprint := PgpFingerprint_String fp;
                           keybase1.Key := key;
                           keybase1.Desc := desc |} ]) e).

(** The body of the [for _, k := range keys] loop of [exportPublic];
    returning [tt] without a push is [continue].  When the query is not
    empty, [match_] is the variable [match] after the [switch]: no case of
    the switch covers [unset], which leaves it at its zero value. *)
Definition exportPublic_body (k : PgpKeyBundle) : M unit :=
  let fp := GetFingerprintP k in
  let '(s, err) := Encode k in
  match fp, err with
  | Some fpv, None =>
      e <- get_engine ;;
      if (0 <? String.length (keybase1.Query (arg e)))%nat then
        let match_ :=
          match qtype e with
          | either =>
              KeyMatchesQuery (GK_PgpKeyBundle k)
                (keybase1.Query (arg e)) (keybase1.ExactMatch (arg e))
          | fingerprint =>
              PgpFingerprint_Match fpv
                (keybase1.Query (arg e)) (keybase1.ExactMatch (arg e))
          | kid =>
              KID_Match (GetKid k)
                (keybase1.Query (arg e)) (keybase1.ExactMatch (arg e))
          | unset => false
          end in
        if negb match_ then ret tt
        else pushRes fpv s (VerboseDescription k)
      else pushRes fpv s (VerboseDescription k)
  | _, _ => ret tt
  end.

(** [for _, x := range xs { body }]. *)
Fixpoint forRange {A : Type} (xs : list A) (body : A -> M unit) : M unit :=
  match xs with
  | [] => ret tt
  | x :: rest => body x ;; forRange rest body
  end.

(** [exportPublic].  The [err] assigned in the loop is a new variable of
    the loop's scope, so the named result stays nil.  [e.me] is
    dereferenced by [GetActivePgpKeys]. *)
Definition exportPublic : M (option error) :=
  e <- get_engine ;;
  match me e with
  | None => panic
  | Some u =>
      let keys := GetActivePgpKeys u false in
      forRange keys exportPublic_body ;;
      ret None
  end.

(** [exportSecret].  A method call on a nil interface value ([key]) or
    through a nil pointer ([skb]) panics. *)
Definition exportSecret (ctx : Context) : M (option error) :=
  e <- get_engine ;;
  let ska := {| Me := me e;
                KeyType := PGPKeyType;
                KeyQuery := keybase1.Query (arg e);
                ExactMatch := keybase1.ExactMatch (arg e) |} in
  r <- call_GetSecretKeyWithPrompt (G_Keyrings (G e))
         (ctxLoginContext ctx) ska (ctxSecretUI ctx) "key export" ;;
  let '(key, skb, err) := r in
  match err with
  | Some err' =>
      if isNoSecretKeyError err' then ret None else ret (Some err')
  | None =>
      match key with
      | None => panic
      | Some key' =>
          match GenericKey_GetFingerprintP key' with
          | None => ret (Some (BadKeyError "no fingerprint found"))
          | Some fp =>
              if negb (isPgpKeyBundle key') then
                ret (Some (BadKeyError "Expected a PGP key"))
              else
                match skb with
                | None => panic
                | Some skb' =>
                    match RawUnlockedKey skb' with
                    | None =>
                        ret (Some (BadKeyError "can't get raw representation of key"))
                    | Some raw =>
                        a <- call_PgpKeyRawToArmored raw true ;;
                        let '(armored, err2) := a in
                        match err2 with
                        | Some err2' => ret (Some err2')
                        | None => pushRes fp armored "" ;; ret None
                        end
                    end
                end
          end
      end
  end.

(** [loadMe]: both results of [libkb.LoadMe] are stored, [e.me] also when
    the load failed. *)
Definition loadMe : M (option error) :=
  r <- call_LoadMe {| PublicKeyOptional := true |} ;;
  let '(u, err) := r in
  modify_engine (set_me u) ;;
  ret err.

(** [defer]: the deferred call sees the named result [err].  It also runs
    when the body panics; every panic of [Run]'s body happens inside
    [exportSecret] or [exportPublic], before their value is assigned to
    [err], which is then still the nil that [loadMe] returned. *)
Definition defer (deferred : option error -> M unit) (body : M (option error))
    : M (option error) :=
  fun m =>
    match body m with
    | Returned err m' =>
        match deferred err m' with
        | Returned _ m'' => Returned err m''
        | Panicked m'' => Panicked m''
        end
    | Panicked m' => Panicked (finalMachine (deferred None m'))
    end.

(** [Run]. *)
Definition Run (ctx : Context) : M (option error) :=
  Log_Debug "+ PGPKeyExportEngine::Run" [] ;;
  defer (fun err => Log_Debug "- PGPKeyExportEngine::Run -> %s" [ErrToOk err])
    (e <- get_engine ;;
     match qtype e with
     | unset => ret (Some (fmt_Errorf "PGPKeyExportEngine: query type not set."))
     | _ =>
         err <- loadMe ;;
         match err with
         | Some _ => ret err
         | None =>
             e' <- get_engine ;;
             if keybase1.Secret (arg e') then exportSecret ctx
             else exportPublic
         end
     end).

End Engine.

(** ** The vocabulary of the properties: the specification's matcher and
    selection, call counts, and the outcomes of the two paths *)
Section Specification.

Context {T : LibkbTypes} {O : LibkbOps}.

(** The Query Matcher as the specification words it: an empty pattern
    matches every key; otherwise the selected field decides, a fingerprint
    that is absent never matching. *)
Definition QueryMatcher
    (sel : queryType) (pattern : string) (exact : bool) (k : PgpKeyBundle) : bool :=
  if String.eqb pattern "" then true
  else
    match sel with
    | fingerprint =>
        match GetFingerprintP k with
        | Some fp => PgpFingerprint_Match fp pattern exact
        | None => false
        end
    | kid => KID_Match (GetKid k) pattern exact
    | either => KeyMatchesQuery (GK_PgpKeyBundle k) pattern exact
    | unset => false
    end.

Definition exposesFingerprint (k : PgpKeyBundle) : bool :=
  match GetFingerprintP k with
  | Some _ => true
  | None => false
  end.

Definition encodes (k : PgpKeyBundle) : bool :=
  match snd (Encode k) with
  | None => true
  | Some _ => false
  end.

(** A record is exported when it exposes a fingerprint, encodes, and
    matches the query under the selected field. *)
Definition exported
    (sel : queryType) (pattern : string) (exact : bool) (k : PgpKeyBundle) : bool :=
  exposesFingerprint k && encodes k && QueryMatcher sel pattern exact k.

(** The [KeyInfo] of an exported record: fingerprint in string form,
    public encoding, human-readable description. *)
Definition publicKeyInfo (k : PgpKeyBundle) : keybase1.KeyInfo :=
  {| keybase1.Fingerprint :=
       match GetFingerprintP k with
       | Some fp => PgpFingerprint_String fp
       | None => ""
       end;
     keybase1.Key := fst (Encode k);
     keybase1.Desc := VerboseDescription k |}.

Definition publicSelection
    (sel : queryType) (pattern : string) (exact : bool)
    (keys : list PgpKeyBundle) : list keybase1.KeyInfo :=
  map publicKeyInfo (filter (exported sel pattern exact) keys).

(** The [KeyInfo] of a secret export. *)
Definition secretKeyInfo (fp : PgpFingerprint) (armored : string) : keybase1.KeyInfo :=
  {| keybase1.Fingerprint := PgpFingerprint_String fp;
     keybase1.Key := armored;
     keybase1.Desc := "" |}.

(** Counting the calls of one kind in a trace. *)
Definition isLoadMe (ev : Event) : bool :=
  match ev with EvLoadMe _ => true | _ => false end.

Definition isGetSecretKeyWithPrompt (ev : Event) : bool :=
  match ev with EvGetSecretKeyWithPrompt _ _ => true | _ => false end.

Definition isPgpKeyRawToArmored (ev : Event) : bool :=
  match ev with EvPgpKeyRawToArmored _ _ => true | _ => false end.

Definition calls (p : Event -> bool) (tr : list Event) : nat :=
  List.length (filter p tr).

(** The three messages of the bad-key errors of [exportSecret]. *)
Definition msgNoFingerprint : string := "no fingerprint found".
Definition msgNotPgp : string := "Expected a PGP key".
Definition msgNoRaw : string := "can't get raw representation of key".

(** The arguments [exportSecret] hands to the key store. *)
Definition secretKeyArgOf (e : PGPKeyExportEngine) : SecretKeyArg :=
  {| Me := me e;
     KeyType := PGPKeyType;
     KeyQuery := keybase1.Query (arg e);
     ExactMatch := keybase1.ExactMatch (arg e) |}.

(** What the key store answers to the engine [e] under the context [ctx]. *)
Definition storeAnswer (ctx : Context) (e : PGPKeyExportEngine)
    : option GenericKey * option SKB * option error :=
  GetSecretKeyWithPrompt (G_Keyrings (G e))
    (ctxLoginContext ctx) (secretKeyArgOf e) (ctxSecretUI ctx) "key export".

(** The machine [m] with [e.res] replaced, and with events appended. *)
Definition withRes (r : list keybase1.KeyInfo) (m : Machine) : Machine :=
  {| eng := set_res r (eng m); trace := trace m |}.

Definition withEvents (evs : list Event) (m : Machine) : Machine :=
  {| eng := eng m; trace := trace m ++ evs |}.

Definition withMe (u : option User) (m : Machine) : Machine :=
  {| eng := set_me u (eng m); trace := trace m |}.

(** The two log lines of [Run], and the call of the identity loader. *)
Definition evEnter : Event := EvDebug "+ PGPKeyExportEngine::Run" [].

Definition evLeave (err : option error) : Event :=
  EvDebug "- PGPKeyExportEngine::Run -> %s" [ErrToOk err].

Definition evLoad : Event := EvLoadMe {| PublicKeyOptional := true |}.

Definition errNotSet : error :=
  fmt_Errorf "PGPKeyExportEngine: query type not set.".

(** The calls of the key store and of the armoring made by [exportSecret]. *)
Definition evStore (e : PGPKeyExportEngine) : Event :=
  EvGetSecretKeyWithPrompt (secretKeyArgOf e) "key export".

Definition evArmor (raw : list Byte.byte) : Event :=
  EvPgpKeyRawToArmored raw true.

(** The deferred log line of [Run], applied to the outcome of its body. *)
Definition leave (r : Res (option error)) : Res (option error) :=
  match r with
  | Returned err m => Returned err (withEvents [evLeave err] m)
  | Panicked m => Panicked (withEvents [evLeave None] m)
  end.

(** The machine on which [Run] starts an export path: entered, identity
    stored. *)
Definition loaded (u : option User) (m : Machine) : Machine :=
  withMe u (withEvents [evEnter; evLoad] m).

(** The postconditions of an unlocked key, in the order [exportSecret]
    checks them, with the message of the first that fails. *)
Inductive PostconditionFails (key : GenericKey) (skb : option SKB) : string -> Prop :=
| FailsNoFingerprint :
    GenericKey_GetFingerprintP key = None ->
    PostconditionFails key skb msgNoFingerprint
| FailsNotPgp (fp : PgpFingerprint) :
    GenericKey_GetFingerprintP key = Some fp ->
    isPgpKeyBundle key = false ->
    PostconditionFails key skb msgNotPgp
| FailsNoRaw (fp : PgpFingerprint) (skb' : SKB) :
    GenericKey_GetFingerprintP key = Some fp ->
    isPgpKeyBundle key = true ->
    skb = Some skb' ->
    RawUnlockedKey skb' = None ->
    PostconditionFails key skb msgNoRaw.

(** The ways [exportSecret] can end on the machine [m]. *)
Inductive SecretOutcome (ctx : Context) (m : Machine) : Res (option error) -> Prop :=
| SecretStoreError key skb err :
    storeAnswer ctx (eng m) = (key, skb, Some err) ->
    SecretOutcome ctx m
      (Returned (if isNoSecretKeyError err then None else Some err)
         (withEvents [evStore (eng m)] m))
| SecretNilKey skb :
    storeAnswer ctx (eng m) = (None, skb, None) ->
    SecretOutcome ctx m (Panicked (withEvents [evStore (eng m)] m))
| SecretBadKey key skb msg :
    storeAnswer ctx (eng m) = (Some key, skb, None) ->
    PostconditionFails key skb msg ->
    SecretOutcome ctx m
      (Returned (Some (BadKeyError msg)) (withEvents [evStore (eng m)] m))
| SecretNilSKB key fp :
    storeAnswer ctx (eng m) = (Some key, None, None) ->
    GenericKey_GetFingerprintP key = Some fp ->
    isPgpKeyBundle key = true ->
    SecretOutcome ctx m (Panicked (withEvents [evStore (eng m)] m))
| SecretArmorFailed key skb fp raw armored err :
    storeAnswer ctx (eng m) = (Some key, Some skb, None) ->
    GenericKey_GetFingerprintP key = Some fp ->
    isPgpKeyBundle key = true ->
    RawUnlockedKey skb = Some raw ->
    PgpKeyRawToArmored raw true = (armored, Some err) ->
    SecretOutcome ctx m
      (Returned (Some err) (withEvents [evStore (eng m); evArmor raw] m))
| SecretExported key skb fp raw armored :
    storeAnswer ctx (eng m) = (Some key, Some skb, None) ->
    GenericKey_GetFingerprintP key = Some fp ->
    isPgpKeyBundle key = true ->
    RawUnlockedKey skb = Some raw ->
    PgpKeyRawToArmored raw true = (armored, None) ->
    SecretOutcome ctx m
      (Returned None
         (withRes (res (eng m) ++ [secretKeyInfo fp armored])
            (withEvents [evStore (eng m); evArmor raw] m))).

(** Where the error of a failed run comes from. *)
Inductive ErrorOrigin (ctx : Context) (m : Machine) (err : error) : Prop :=
| OriginConfiguration :
    qtype (eng m) = unset ->
    err = errNotSet ->
    ErrorOrigin ctx m err
| OriginLoad (u : option User) :
    LoadMe {| PublicKeyOptional := true |} = (u, Some err) ->
    ErrorOrigin ctx m err
| OriginUnlock (u : option User) (key : option GenericKey) (skb : option SKB) :
    keybase1.Secret (arg (eng m)) = true ->
    storeAnswer ctx (set_me u (eng m)) = (key, skb, Some err) ->
    isNoSecretKeyError err = false ->
    ErrorOrigin ctx m err
| OriginBadKey (u : option User) (key : GenericKey) (skb : option SKB) (msg : string) :
    keybase1.Secret (arg (eng m)) = true ->
    storeAnswer ctx (set_me u (eng m)) = (Some key, skb, None) ->
    PostconditionFails key skb msg ->
    err = BadKeyError msg ->
    ErrorOrigin ctx m err
| OriginSecretEncoding (raw : list Byte.byte) (s : string) :
    keybase1.Secret (arg (eng m)) = true ->
    PgpKeyRawToArmored raw true = (s, Some err) ->
    ErrorOrigin ctx m err.

End Specification.

(** ** A concrete world: fingerprints and key ids are hexadecimal strings *)
Module Fixture.

Definition contains (pattern s : string) : bool :=
  match String.index 0 pattern s with
  | Some _ => true
  | None => false
  end.

Definition literalMatch (s pattern : string) (exact : bool) : bool :=
  if exact then String.eqb s pattern else contains pattern s.

Definition types : LibkbTypes :=
  {| PgpFingerprint := string;
     KID := string;
     LoginContext := unit;
     SecretUI := unit;
     SecretKeyType := nat;
     PGPKeyType := 2 |}.

#[local] Existing Instance types.

Definition keyMatches (key : @GenericKey types) (pattern : string) (exact : bool) : bool :=
  match key with
  | GK_PgpKeyBundle k =>
      match @GetFingerprintP types k with
      | Some fp => literalMatch fp pattern exact
      | None => false
      end
      || literalMatch (@GetKid types k) pattern exact
  | GK_other (Some fp) => literalMatch fp pattern exact
  | GK_other None => false
  end.

Definition errToOk (err : option error) : string :=
  match err with
  | None => "ok"
  | Some _ => "ERROR"
  end.

(** The world is determined by what the identity loader and the armoring
    answer. *)
Definition ops
    (loaded : option (@User types) * option error)
    (armor : string * option error) : @LibkbOps types :=
  {| PgpFingerprint_String := fun fp : @PgpFingerprint types => fp;
     PgpFingerprint_Match := literalMatch;
     KID_Match := literalMatch;
     KeyMatchesQuery := keyMatches;
     LoadMe := fun _ => loaded;
     PgpKeyRawToArmored := fun _ _ => armor;
     ErrToOk := errToOk |}.

Definition keyA : @PgpKeyBundle types :=
  {| GetFingerprintP := Some "AAAA1111";
     Encode := ("-----PUBLIC A-----", None);
     GetKid := "K1";
     VerboseDescription := "key A" |}.

Definition keyB : @PgpKeyBundle types :=
  {| GetFingerprintP := Some "BBBB2222";
     Encode := ("-----PUBLIC B-----", None);
     GetKid := "K2";
     VerboseDescription := "key B" |}.

(** A record whose public encoding fails. *)
Definition keyBroken : @PgpKeyBundle types :=
  {| GetFingerprintP := Some "CCCC3333";
     Encode := ("", Some (CollaboratorError "encode failed"));
     GetKid := "K3";
     VerboseDescription := "key C" |}.

(** A record without fingerprint. *)
Definition keyNoFp : @PgpKeyBundle types :=
  {| GetFingerprintP := None;
     Encode := ("-----PUBLIC D-----", None);
     GetKid := "K4";
     VerboseDescription := "key D" |}.

Definition userAB : @User types :=
  {| GetActivePgpKeys := fun _ => [keyA; keyB] |}.

Definition userBroken : @User types :=
  {| GetActivePgpKeys := fun _ => [keyBroken] |}.

Definition userMixed : @User types :=
  {| GetActivePgpKeys := fun _ => [keyNoFp; keyA; keyBroken; keyB] |}.

(** A key store with a fixed answer. *)
Definition store
    (answer : option (@GenericKey types) * option SKB * option error)
    : @GlobalContext types :=
  {| G_Keyrings := {| GetSecretKeyWithPrompt := fun _ _ _ _ => answer |} |}.

Definition noStore : @GlobalContext types :=
  store (None, None, Some NoSecretKeyError).

Definition ctx : @Context types :=
  {| ctxLoginContext := tt : @LoginContext types;
     ctxSecretUI := tt : @SecretUI types |}.

Definition query (secret : bool) (pattern : string) (exact : bool) : keybase1.PGPQuery :=
  {| keybase1.Secret := secret;
     keybase1.Query := pattern;
     keybase1.ExactMatch := exact |}.

Definition start (e : @PGPKeyExportEngine types) : @Machine types :=
  {| eng := e; trace := [] |}.

Definition rawKey : list Byte.byte := [Byte.x01; Byte.x02].

Definition unlockedA : SKB := {| RawUnlockedKey := Some rawKey |}.
Definition unlockedNoRaw : SKB := {| RawUnlockedKey := None |}.

Definition armorOk : string * option error := ("-----SECRET-----", None).
Definition armorFails : string * option error :=
  ("", Some (CollaboratorError "armor failed")).

End Fixture.

(** ** Engines and expected results on the concrete world *)
Module Scenario.

Import Fixture.

#[local] Existing Instance types.

(** Worlds: the identity loads with the given user; the armoring answers
    as given. *)
Definition world (u : @User types) (armor : string * option error) : LibkbOps :=
  ops (Some u, None) armor.

Definition byQuery (q : keybase1.PGPQuery) (g : GlobalContext) : PGPKeyExportEngine :=
  NewPGPKeyExportEngine {| keybase1.Options := q |} g.

Definition byFingerprint (q : keybase1.PGPQuery) (g : GlobalContext) : PGPKeyExportEngine :=
  NewPGPKeyExportByFingerprintEngine {| keybase1.ByFingerprintOptions := q |} g.

Definition byKID (q : keybase1.PGPQuery) (g : GlobalContext) : PGPKeyExportEngine :=
  NewPGPKeyExportByKIDEngine {| keybase1.ByKIDOptions := q |} g.

(** An engine whose selector was never set. *)
Definition notConfigured : PGPKeyExportEngine :=
  {| Contextified := noStore; arg := query false "" false; qtype := unset;
     res := []; me := None |}.

Definition infoA : keybase1.KeyInfo :=
  {| keybase1.Fingerprint := "AAAA1111";
     keybase1.Key := "-----PUBLIC A-----";
     keybase1.Desc := "key A" |}.

Definition infoB : keybase1.KeyInfo :=
  {| keybase1.Fingerprint := "BBBB2222";
     keybase1.Key := "-----PUBLIC B-----";
     keybase1.Desc := "key B" |}.

Definition infoSecretA : keybase1.KeyInfo :=
  {| keybase1.Fingerprint := "AAAA1111";
     keybase1.Key := "-----SECRET-----";
     keybase1.Desc := "" |}.

Definition cancelled : error := CollaboratorError "input cancelled".

(** A key of another family that nevertheless has a fingerprint. *)
Definition otherKey : GenericKey := @GK_other types (Some "AAAA1111").

Definition storeA : GlobalContext :=
  store (Some (GK_PgpKeyBundle keyA), Some unlockedA, None).

Definition resultsOf (r : Res (option error)) : list keybase1.KeyInfo :=
  Results (eng (finalMachine r)).

Definition errorOf (r : Res (option error)) : option (option error) :=
  match r with
  | Returned err _ => Some err
  | Panicked _ => None
  end.

End Scenario.

(** ** Whole runs: the ways [Run] can end, and what a run may change *)
Section Runs.

Context {T : LibkbTypes} {O : LibkbOps}.

(** The engine with another selector, and the same on machines and on
    outcomes. *)
Definition set_qtype (q : queryType) (e : PGPKeyExportEngine) : PGPKeyExportEngine :=
  {| Contextified := Contextified e; arg := arg e; qtype := q;
     res := res e; me := me e |}.

Definition withQtype (q : queryType) (m : Machine) : Machine :=
  {| eng := set_qtype q (eng m); trace := trace m |}.

Definition retag {A : Type} (q : queryType) (r : Res A) : Res A :=
  match r with
  | Returned a m => Returned a (withQtype q m)
  | Panicked m => Panicked (withQtype q m)
  end.

(** The value of the named result [err] of [Run] when the deferred log
    line is written: the returned error, nil on a panic. *)
Definition returnedError (r : Res (option error)) : option error :=
  match r with
  | Returned err _ => err
  | Panicked _ => None
  end.

Definition isDebug (ev : Event) : bool :=
  match ev with EvDebug _ _ => true | _ => false end.

(** The ways [Run] can end on the machine [m]. *)
Inductive RunOutcome (ctx : Context) (m : Machine) : Res (option error) -> Prop :=
| RunNotConfigured :
    qtype (eng m) = unset ->
    RunOutcome ctx m
      (Returned (Some errNotSet)
         (withEvents [evEnter; evLeave (Some errNotSet)] m))
| RunLoadFailed u err :
    qtype (eng m) <> unset ->
    LoadMe {| PublicKeyOptional := true |} = (u, Some err) ->
    RunOutcome ctx m
      (Returned (Some err)
         (withMe u (withEvents [evEnter; evLoad; evLeave (Some err)] m)))
| RunPublic u :
    qtype (eng m) <> unset ->
    keybase1.Secret (arg (eng m)) = false ->
    LoadMe {| PublicKeyOptional := true |} = (Some u, None) ->
    RunOutcome ctx m
      (Returned None
         (withEvents [evLeave None]
            (withRes (res (eng m) ++
                      publicSelection (qtype (eng m)) (keybase1.Query (arg (eng m)))
                        (keybase1.ExactMatch (arg (eng m)))
                        (GetActivePgpKeys u false))
               (loaded (Some u) m))))
| RunPublicNilUser :
    qtype (eng m) <> unset ->
    keybase1.Secret (arg (eng m)) = false ->
    LoadMe {| PublicKeyOptional := true |} = (None, None) ->
    RunOutcome ctx m (Panicked (withEvents [evLeave None] (loaded None m)))
| RunSecret u r :
    qtype (eng m) <> unset ->
    keybase1.Secret (arg (eng m)) = true ->
    LoadMe {| PublicKeyOptional := true |} = (u, None) ->
    SecretOutcome ctx (loaded u m) r ->
    RunOutcome ctx m (leave r).

(** [Run] on the engine [e] goes past the selector check: the trace [tr]
    grows by the first log line, then the call of the identity loader. *)
Definition reachesLoader (ctx : Context) (e : PGPKeyExportEngine) (tr : list Event) : Prop :=
  exists rest,
    trace (finalMachine (Run ctx {| eng := e; trace := tr |})) =
      tr ++ evEnter :: evLoad :: rest /\
    calls isLoadMe rest = 0.

(** The argument the key store receives on the secret path of a run whose
    identity loader returned [u]. *)
Definition storeCall (u : option User) (e : PGPKeyExportEngine) : Event :=
  EvGetSecretKeyWithPrompt
    {| Me := u;
       KeyType := PGPKeyType;
       KeyQuery := keybase1.Query (arg e);
       ExactMatch := keybase1.ExactMatch (arg e) |}
    "key export".

End Runs.

(** * Properties *)
Section Properties.

Context {T : LibkbTypes} {O : LibkbOps}.

Implicit Types (m : Machine) (e : PGPKeyExportEngine) (k : PgpKeyBundle).

(** ** Bookkeeping on machines *)

Lemma set_res_same e : set_res (res e) e = e.
Proof. destruct e; reflexivity. Qed.

Lemma withRes_same m : withRes (res (eng m)) m = m.
Proof. destruct m as [e tr]; unfold withRes; simpl; rewrite set_res_same; reflexivity. Qed.

Lemma calls_app p (tr tr' : list Event) :
  calls p (tr ++ tr') = calls p tr + calls p tr'.
Proof. unfold calls; rewrite filter_app, length_app; reflexivity. Qed.

(** ** The public path *)

Lemma publicSelection_cons sel pattern exact k keys :
  publicSelection sel pattern exact (k :: keys) =
  publicSelection sel pattern exact [k] ++ publicSelection sel pattern exact keys.
Proof.
  unfold publicSelection; simpl.
  destruct (exported sel pattern exact k); reflexivity.
Qed.

Lemma publicSelection_single sel pattern exact k :
  publicSelection sel pattern exact [k] =
  if exported sel pattern exact k then [publicKeyInfo k] else [].
Proof.
  unfold publicSelection; simpl.
  destruct (exported sel pattern exact k); reflexivity.
Qed.

(** One turn of the loop appends the selection of its record. *)
Lemma exportPublic_body_spec k m :
  exportPublic_body k m =
  Returned tt
    (withRes (res (eng m) ++
              publicSelection (qtype (eng m)) (keybase1.Query (arg (eng m)))
                (keybase1.ExactMatch (arg (eng m))) [k]) m).
Proof.
  rewrite publicSelection_single.
  unfold exportPublic_body, exported, exposesFingerprint, encodes,
    publicKeyInfo, QueryMatcher.
  destruct (GetFingerprintP k) as [fp|]; destruct (Encode k) as [s [err|]];
    simpl; try (rewrite app_nil_r, withRes_same; reflexivity).
  unfold bind, get_engine.
  destruct (keybase1.Query (arg (eng m))) as [|c pattern]; simpl;
    [reflexivity|].
  destruct (qtype (eng m)); simpl;
    try match goal with
        | |- context [negb ?b] => destruct b; simpl
        end;
    try reflexivity;
    rewrite app_nil_r, withRes_same; reflexivity.
Qed.

Lemma forRange_exportPublic keys m :
  forRange keys exportPublic_body m =
  Returned tt
    (withRes (res (eng m) ++
              publicSelection (qtype (eng m)) (keybase1.Query (arg (eng m)))
                (keybase1.ExactMatch (arg (eng m))) keys) m).
Proof.
  revert m; induction keys as [|k keys IH]; intros m.
  - simpl. unfold ret, publicSelection; simpl.
    rewrite app_nil_r, withRes_same; reflexivity.
  - simpl. unfold bind. rewrite exportPublic_body_spec, IH.
    rewrite (publicSelection_cons _ _ _ k keys).
    simpl. rewrite app_assoc. reflexivity.
Qed.

(** [exportPublic] on a loaded identity: it returns nil, and [e.res] grows
    by the selection. *)
Lemma exportPublic_spec m u :
  me (eng m) = Some u ->
  exportPublic m =
  Returned None
    (withRes (res (eng m) ++
              publicSelection (qtype (eng m)) (keybase1.Query (arg (eng m)))
                (keybase1.ExactMatch (arg (eng m)))
                (GetActivePgpKeys u false)) m).
Proof.
  intros Hme. unfold exportPublic, bind, get_engine. rewrite Hme.
  rewrite forRange_exportPublic. reflexivity.
Qed.

(** ** The secret path *)

Ltac unfold_monad :=
  repeat (progress (unfold bind, get_engine, modify_engine, emit, ret, panic,
                      pushRes, Log_Debug, call_LoadMe,
                      call_GetSecretKeyWithPrompt, call_PgpKeyRawToArmored;
                    cbn beta iota; cbn [eng trace])).

(** The store reports an error: benign when it is [NoSecretKeyError]. *)
Lemma exportSecret_store_error ctx m key skb err :
  storeAnswer ctx (eng m) = (key, skb, Some err) ->
  exportSecret ctx m =
  Returned (if isNoSecretKeyError err then None else Some err)
    (withEvents [evStore (eng m)] m).
Proof.
  intros H. unfold exportSecret; unfold_monad.
  unfold storeAnswer, secretKeyArgOf in H. rewrite H.
  destruct (isNoSecretKeyError err); reflexivity.
Qed.

(** A postcondition of the unlocked key fails. *)
Lemma exportSecret_bad_key ctx m key skb msg :
  storeAnswer ctx (eng m) = (Some key, skb, None) ->
  PostconditionFails key skb msg ->
  exportSecret ctx m =
  Returned (Some (BadKeyError msg)) (withEvents [evStore (eng m)] m).
Proof.
  intros H F. unfold exportSecret; unfold_monad.
  unfold storeAnswer, secretKeyArgOf in H. rewrite H.
  destruct F as [Hfp | fp Hfp Hpgp | fp skb' Hfp Hpgp Hskb Hraw].
  - rewrite Hfp. reflexivity.
  - rewrite Hfp, Hpgp. reflexivity.
  - rewrite Hfp, Hpgp, Hskb, Hraw. reflexivity.
Qed.

(** The key is accepted and handed to the armoring. *)
Lemma exportSecret_armor ctx m key skb fp raw armored err :
  storeAnswer ctx (eng m) = (Some key, Some skb, None) ->
  GenericKey_GetFingerprintP key = Some fp ->
  isPgpKeyBundle key = true ->
  RawUnlockedKey skb = Some raw ->
  PgpKeyRawToArmored raw true = (armored, err) ->
  exportSecret ctx m =
  match err with
  | Some err' =>
      Returned (Some err') (withEvents [evStore (eng m); evArmor raw] m)
  | None =>
      Returned None
        (withRes (res (eng m) ++ [secretKeyInfo fp armored])
           (withEvents [evStore (eng m); evArmor raw] m))
  end.
Proof.
  intros H Hfp Hpgp Hraw Harm.
  unfold exportSecret; unfold_monad.
  unfold storeAnswer, secretKeyArgOf in H. rewrite H.
  rewrite Hfp, Hpgp. cbn [negb]. rewrite Hraw. unfold_monad. rewrite Harm.
  unfold withEvents, withRes; cbn [eng trace]; rewrite <- app_assoc.
  destruct err; reflexivity.
Qed.

Lemma exportSecret_nil_key ctx m skb :
  storeAnswer ctx (eng m) = (None, skb, None) ->
  exportSecret ctx m = Panicked (withEvents [evStore (eng m)] m).
Proof.
  intros H. unfold exportSecret; unfold_monad.
  unfold storeAnswer, secretKeyArgOf in H. rewrite H. reflexivity.
Qed.

Lemma exportSecret_nil_skb ctx m key fp :
  storeAnswer ctx (eng m) = (Some key, None, None) ->
  GenericKey_GetFingerprintP key = Some fp ->
  isPgpKeyBundle key = true ->
  exportSecret ctx m = Panicked (withEvents [evStore (eng m)] m).
Proof.
  intros H Hfp Hpgp. unfold exportSecret; unfold_monad.
  unfold storeAnswer, secretKeyArgOf in H. rewrite H, Hfp, Hpgp. reflexivity.
Qed.

(** [exportSecret] always ends in one of the six ways. *)
Lemma exportSecret_outcome ctx m : SecretOutcome ctx m (exportSecret ctx m).
Proof.
  destruct (storeAnswer ctx (eng m)) as [[key skb] err] eqn:H.
  destruct err as [err|].
  { rewrite (exportSecret_store_error _ _ _ _ _ H). econstructor; eassumption. }
  destruct key as [key|].
  2: { rewrite (exportSecret_nil_key _ _ _ H). econstructor; eassumption. }
  destruct (GenericKey_GetFingerprintP key) as [fp|] eqn:Hfp.
  2: { rewrite (exportSecret_bad_key _ _ _ _ msgNoFingerprint H).
       - eapply SecretBadKey; [eassumption | constructor; assumption].
       - constructor; assumption. }
  destruct (isPgpKeyBundle key) eqn:Hpgp.
  2: { rewrite (exportSecret_bad_key _ _ _ _ msgNotPgp H).
       - eapply SecretBadKey; [eassumption | econstructor 2; eassumption].
       - econstructor 2; eassumption. }
  destruct skb as [skb|].
  2: { rewrite (exportSecret_nil_skb _ _ _ _ H Hfp Hpgp).
       eapply SecretNilSKB; eassumption. }
  destruct (RawUnlockedKey skb) as [raw|] eqn:Hraw.
  2: { rewrite (exportSecret_bad_key _ _ _ _ msgNoRaw H).
       - eapply SecretBadKey; [eassumption | econstructor 3; eauto].
       - econstructor 3; eauto. }
  destruct (PgpKeyRawToArmored raw true) as [armored err] eqn:Harm.
  rewrite (exportSecret_armor _ _ _ _ _ _ _ _ H Hfp Hpgp Hraw Harm).
  destruct err as [err|].
  - eapply SecretArmorFailed; eassumption.
  - eapply SecretExported; eassumption.
Qed.

(** ** [Run] *)

Lemma Run_unset ctx m :
  qtype (eng m) = unset ->
  Run ctx m =
  Returned (Some errNotSet) (withEvents [evEnter; evLeave (Some errNotSet)] m).
Proof.
  intros H. unfold Run, defer; unfold_monad. rewrite H. unfold_monad.
  unfold withEvents; cbn [eng trace]; rewrite <- app_assoc; reflexivity.
Qed.

Lemma Run_load_failed ctx m u err :
  qtype (eng m) <> unset ->
  LoadMe {| PublicKeyOptional := true |} = (u, Some err) ->
  Run ctx m =
  Returned (Some err)
    (withMe u (withEvents [evEnter; evLoad; evLeave (Some err)] m)).
Proof.
  intros Hq Hl. unfold Run, defer, loadMe; unfold_monad. rewrite Hl.
  destruct (qtype (eng m)); try congruence; unfold_monad;
    unfold withMe, withEvents; cbn [eng trace];
    repeat rewrite <- app_assoc; reflexivity.
Qed.

Lemma Run_export ctx m u :
  qtype (eng m) <> unset ->
  LoadMe {| PublicKeyOptional := true |} = (u, None) ->
  Run ctx m =
  leave (if keybase1.Secret (arg (eng m)) then exportSecret ctx (loaded u m)
         else exportPublic (loaded u m)).
Proof.
  intros Hq Hl. unfold Run, defer, loadMe; unfold_monad. rewrite Hl.
  assert (E : {| eng := set_me u (eng m);
                 trace := (trace m ++ [EvDebug "+ PGPKeyExportEngine::Run" []]) ++
                          [EvLoadMe {| PublicKeyOptional := true |}] |}
              = loaded u m).
  { unfold loaded, withMe, withEvents; cbn [eng trace].
    rewrite <- app_assoc; reflexivity. }
  destruct (qtype (eng m)); try congruence; unfold_monad; cbn [set_me arg];
    rewrite E;
    destruct (keybase1.Secret (arg (eng m)));
    match goal with
    | |- context [leave ?r] => destruct r as [[err|] m'|m']
    end; reflexivity.
Qed.

Lemma exported_empty_query sel exact k :
  exported sel "" exact k = exposesFingerprint k && encodes k.
Proof. unfold exported, QueryMatcher; simpl; apply andb_true_r. Qed.

Lemma exported_inv sel pattern exact k :
  exported sel pattern exact k = true ->
  exists fp s,
    GetFingerprintP k = Some fp /\ Encode k = (s, None) /\
    QueryMatcher sel pattern exact k = true /\
    publicKeyInfo k =
      {| keybase1.Fingerprint := PgpFingerprint_String fp;
         keybase1.Key := s;
         keybase1.Desc := VerboseDescription k |}.
Proof.
  unfold exported, exposesFingerprint, encodes, publicKeyInfo.
  destruct (GetFingerprintP k) as [fp|]; [|discriminate].
  destruct (Encode k) as [s [err|]]; simpl; [discriminate|].
  intros H. exists fp, s. repeat split; assumption.
Qed.

(** The public path through [Run], on any starting result sequence. *)
Lemma Run_public ctx m u :
  qtype (eng m) <> unset ->
  keybase1.Secret (arg (eng m)) = false ->
  LoadMe {| PublicKeyOptional := true |} = (Some u, None) ->
  Run ctx m =
  Returned None
    (withEvents [evLeave None]
       (withRes (res (eng m) ++
                 publicSelection (qtype (eng m)) (keybase1.Query (arg (eng m)))
                   (keybase1.ExactMatch (arg (eng m)))
                   (GetActivePgpKeys u false))
          (loaded (Some u) m))).
Proof.
  intros Hq Hs Hl. rewrite (Run_export _ _ _ Hq Hl), Hs.
  rewrite (exportPublic_spec (loaded (Some u) m) u); reflexivity.
Qed.

(** The secret path through [Run]. *)
Lemma Run_secret ctx m u :
  qtype (eng m) <> unset ->
  keybase1.Secret (arg (eng m)) = true ->
  LoadMe {| PublicKeyOptional := true |} = (u, None) ->
  Run ctx m = leave (exportSecret ctx (loaded u m)).
Proof.
  intros Hq Hs Hl. rewrite (Run_export _ _ _ Hq Hl), Hs. reflexivity.
Qed.

(** A failed run: what is left of the engine, what was called, and where
    the error comes from. *)
Lemma Run_failed ctx m err m' :
  Run ctx m = Returned (Some err) m' ->
  res (eng m') = res (eng m) /\
  ErrorOrigin ctx m err /\
  exists evs,
    trace m' = trace m ++ evs /\
    calls isLoadMe evs <= 1 /\
    calls isGetSecretKeyWithPrompt evs <= 1 /\
    calls isPgpKeyRawToArmored evs <= 1.
Proof.
  intros H.
  destruct (qtype (eng m)) eqn:Hq.
  1: { rewrite (Run_unset _ _ Hq) in H. inversion H; subst; clear H.
       split; [reflexivity|]. split; [apply OriginConfiguration; auto|].
       eexists; split; [reflexivity|]. unfold calls; simpl; lia. }
  all: assert (Hq' : qtype (eng m) <> unset) by (rewrite Hq; discriminate);
    clear Hq;
    destruct (LoadMe {| PublicKeyOptional := true |}) as [u [lerr|]] eqn:Hl.
  all: try (rewrite (Run_load_failed _ _ _ _ Hq' Hl) in H;
            inversion H; subst; clear H;
            split; [reflexivity|]; split; [eapply OriginLoad; eassumption|];
            eexists; split; [reflexivity|]; unfold calls; simpl; lia).
  all: rewrite (Run_export _ _ _ Hq' Hl) in H;
    destruct (keybase1.Secret (arg (eng m))) eqn:Hs.
  all: try (exfalso; destruct u as [u|];
            [ rewrite (exportPublic_spec (loaded (Some u) m) u eq_refl) in H;
              discriminate
            | unfold exportPublic in H; unfold_monad; cbn in H; discriminate ]).
  all: pose proof (exportSecret_outcome ctx (loaded u m)) as Ho;
    remember (exportSecret ctx (loaded u m)) as r eqn:Hr; clear Hr;
    destruct Ho as [key skb err0 Hst | skb Hst | key skb msg Hst F
                   | key fp Hst Hfp Hpgp
                   | key skb fp raw armored err0 Hst Hfp Hpgp Hraw Harm
                   | key skb fp raw armored Hst Hfp Hpgp Hraw Harm ];
    cbn [leave] in H; try discriminate;
    cbn [loaded withMe withEvents eng] in Hst.
  all: try (destruct (isNoSecretKeyError err0) eqn:Hno; [discriminate|]).
  all: inversion H; subst; clear H; cbn [eng trace withEvents withRes loaded withMe
                                         set_me set_res res].
  all: (split; [reflexivity|]); split.
  all: try (eapply OriginUnlock; eassumption).
  all: try (eapply OriginBadKey; eauto; fail).
  all: try (eapply OriginSecretEncoding; eassumption).
  all: eexists; (split; [repeat rewrite <- app_assoc; reflexivity|]);
    unfold calls; simpl; lia.
Qed.

(** After a run on the secret path the results are what they were, or
    they have grown by one [KeyInfo]. *)
Lemma Run_secret_results ctx m :
  keybase1.Secret (arg (eng m)) = true ->
  res (eng (finalMachine (Run ctx m))) = res (eng m) \/
  exists fp armored,
    res (eng (finalMachine (Run ctx m))) = res (eng m) ++ [secretKeyInfo fp armored].
Proof.
  intros Hs.
  destruct (qtype (eng m)) eqn:Hq.
  1: { rewrite (Run_unset _ _ Hq). left; reflexivity. }
  all: assert (Hq' : qtype (eng m) <> unset) by (rewrite Hq; discriminate);
    clear Hq;
    destruct (LoadMe {| PublicKeyOptional := true |}) as [u [lerr|]] eqn:Hl.
  all: try (rewrite (Run_load_failed _ _ _ _ Hq' Hl); left; reflexivity).
  all: rewrite (Run_secret _ _ _ Hq' Hs Hl);
    destruct (exportSecret_outcome ctx (loaded u m));
    cbn [leave finalMachine eng withEvents withRes set_res res loaded withMe set_me];
    try (left; reflexivity); right; eauto.
Qed.

Lemma filter_repeat {A : Type} (f : A -> bool) (x : A) (n : nat) :
  f x = true -> filter f (repeat x n) = repeat x n.
Proof.
  intros H. induction n as [|n IH]; simpl; [reflexivity|].
  rewrite H, IH. reflexivity.
Qed.

(** * The claims *)

(** C1. Public export, after a successful identity load: the results are,
    in the order of the identity's active keys, the [KeyInfo]s of exactly
    the records that expose a fingerprint, encode, and match the query
    under the selected field; the others are skipped without error and
    nothing bounds the number of results. *)
Theorem public_export_selection ctx m u :
  qtype (eng m) <> unset ->
  keybase1.Secret (arg (eng m)) = false ->
  LoadMe {| PublicKeyOptional := true |} = (Some u, None) ->
  Results (eng m) = [] ->
  let selected :=
    filter (exported (qtype (eng m)) (keybase1.Query (arg (eng m)))
              (keybase1.ExactMatch (arg (eng m))))
      (GetActivePgpKeys u false) in
  exists m',
    Run ctx m = Returned None m' /\
    Results (eng m') = map publicKeyInfo selected /\
    List.length (Results (eng m')) = List.length selected /\
    (forall k,
        In k selected <->
        In k (GetActivePgpKeys u false) /\
        exposesFingerprint k = true /\ encodes k = true /\
        QueryMatcher (qtype (eng m)) (keybase1.Query (arg (eng m)))
          (keybase1.ExactMatch (arg (eng m))) k = true) /\
    (forall k,
        In k selected ->
        exists fp s,
          GetFingerprintP k = Some fp /\ Encode k = (s, None) /\
          publicKeyInfo k =
            {| keybase1.Fingerprint := PgpFingerprint_String fp;
               keybase1.Key := s;
               keybase1.Desc := VerboseDescription k |}).
Proof.
  intros Hq Hs Hl Hres selected.
  eexists. split; [apply (Run_public _ _ _ Hq Hs Hl)|].
  unfold Results in *; cbn [eng withEvents withRes set_res res].
  rewrite Hres; cbn [app]. fold selected.
  split; [reflexivity|]. split; [apply length_map|]. split.
  - intros k. unfold selected. rewrite filter_In. unfold exported.
    rewrite !andb_true_iff. tauto.
  - intros k Hk. unfold selected in Hk. apply filter_In in Hk.
    destruct Hk as [_ Hk]. apply exported_inv in Hk.
    destruct Hk as (fp & s & Hfp & Henc & _ & Hinfo). eauto.
Qed.

(** C2. Secret export: when the key store reports [NoSecretKeyError] the
    run succeeds with an empty result sequence; any other error of the
    unlock step is returned unchanged. *)
Theorem secret_export_store_error ctx m u key skb err :
  qtype (eng m) <> unset ->
  keybase1.Secret (arg (eng m)) = true ->
  LoadMe {| PublicKeyOptional := true |} = (u, None) ->
  storeAnswer ctx (set_me u (eng m)) = (key, skb, Some err) ->
  Results (eng m) = [] ->
  exists m',
    Run ctx m =
      Returned (if isNoSecretKeyError err then None else Some err) m' /\
    Results (eng m') = [].
Proof.
  intros Hq Hs Hl Hst Hres.
  rewrite (Run_secret _ _ _ Hq Hs Hl).
  rewrite (exportSecret_store_error ctx (loaded u m) key skb err Hst).
  eexists; split; [reflexivity|]. exact Hres.
Qed.

(** C3. Secret export, the store having returned an unlocked key: the
    fingerprint, the key family and the raw representation are checked in
    this order; the first check that fails ends the run with a
    [BadKeyError] carrying the message of that check, the three messages
    differ, and nothing is appended to the results. *)
Theorem secret_export_bad_key ctx m u key skb msg :
  qtype (eng m) <> unset ->
  keybase1.Secret (arg (eng m)) = true ->
  LoadMe {| PublicKeyOptional := true |} = (u, None) ->
  storeAnswer ctx (set_me u (eng m)) = (Some key, skb, None) ->
  PostconditionFails key skb msg ->
  exists m',
    Run ctx m = Returned (Some (BadKeyError msg)) m' /\
    isBadKeyError (BadKeyError msg) = true /\
    Results (eng m') = Results (eng m) /\
    msgNoFingerprint <> msgNotPgp /\
    msgNoFingerprint <> msgNoRaw /\
    msgNotPgp <> msgNoRaw.
Proof.
  intros Hq Hs Hl Hst F.
  rewrite (Run_secret _ _ _ Hq Hs Hl).
  rewrite (exportSecret_bad_key ctx (loaded u m) key skb msg Hst F).
  eexists; split; [reflexivity|].
  repeat split; unfold msgNoFingerprint, msgNotPgp, msgNoRaw; discriminate.
Qed.

(** C4. A run whose selector is [unset] fails at once with the
    configuration error: the identity loader, the key store and the
    armoring are not called, the engine is left as it was, and the result
    sequence stays empty. *)
Theorem unset_selector_fails_fast ctx m :
  qtype (eng m) = unset ->
  Results (eng m) = [] ->
  exists m',
    Run ctx m = Returned (Some errNotSet) m' /\
    trace m' = trace m ++ [evEnter; evLeave (Some errNotSet)] /\
    calls isLoadMe (trace m') = calls isLoadMe (trace m) /\
    calls isGetSecretKeyWithPrompt (trace m') =
      calls isGetSecretKeyWithPrompt (trace m) /\
    calls isPgpKeyRawToArmored (trace m') =
      calls isPgpKeyRawToArmored (trace m) /\
    eng m' = eng m /\
    Results (eng m') = [].
Proof.
  intros Hq Hres. rewrite (Run_unset _ _ Hq).
  eexists; split; [reflexivity|].
  cbn [withEvents eng trace]. rewrite !calls_app.
  repeat split; try (unfold calls; simpl; lia). exact Hres.
Qed.

(** C5. With an empty query every record matches, whatever the selector:
    each turn of the loop pushes the record as soon as it has a fingerprint
    and encodes, and a public export returns all such records. *)
Theorem empty_query_exports_all ctx m u :
  keybase1.Query (arg (eng m)) = "" ->
  qtype (eng m) <> unset ->
  keybase1.Secret (arg (eng m)) = false ->
  LoadMe {| PublicKeyOptional := true |} = (Some u, None) ->
  Results (eng m) = [] ->
  (forall sel exact k, QueryMatcher sel "" exact k = true) /\
  (forall k,
      exportPublic_body k m =
      Returned tt
        (withRes (res (eng m) ++
                  if exposesFingerprint k && encodes k
                  then [publicKeyInfo k] else []) m)) /\
  exists m',
    Run ctx m = Returned None m' /\
    Results (eng m') =
      map publicKeyInfo
        (filter (fun k => exposesFingerprint k && encodes k)
           (GetActivePgpKeys u false)).
Proof.
  intros Hquery Hq Hs Hl Hres. split; [reflexivity|]. split.
  - intros k. rewrite exportPublic_body_spec, publicSelection_single, Hquery.
    rewrite exported_empty_query. reflexivity.
  - eexists. split; [apply (Run_public _ _ _ Hq Hs Hl)|].
    unfold Results in *; cbn [eng withEvents withRes set_res res].
    rewrite Hres, Hquery; cbn [app]. unfold publicSelection. f_equal.
    apply filter_ext. intros k. apply exported_empty_query.
Qed.

(** C6. A secret export leaves zero or one result, however the run ends;
    a public export has no such bound: for any [n] some identity yields
    [n] results. *)
Theorem secret_export_at_most_one
    ctx m (n : nat) (fp : PgpFingerprint) (kd : KID) :
  keybase1.Secret (arg (eng m)) = true ->
  Results (eng m) = [] ->
  (List.length (Results (eng (finalMachine (Run ctx m)))) = 0 \/
   List.length (Results (eng (finalMachine (Run ctx m)))) = 1) /\
  exists u m',
    exportPublic
      {| eng := set_me (Some u)
                  (NewPGPKeyExportEngine
                     {| keybase1.Options :=
                          {| keybase1.Secret := false;
                             keybase1.Query := "";
                             keybase1.ExactMatch := false |} |}
                     (G (eng m)));
         trace := [] |} = Returned None m' /\
    List.length (Results (eng m')) = n.
Proof.
  intros Hs Hres. split.
  - unfold Results in *.
    destruct (Run_secret_results ctx m Hs) as [E | (fp' & armored & E)];
      rewrite E, Hres; [left | right]; reflexivity.
  - pose (k := {| GetFingerprintP := Some fp; Encode := ("", None);
                  GetKid := kd; VerboseDescription := "" |}).
    exists {| GetActivePgpKeys := fun _ => repeat k n |}.
    eexists. split; [apply exportPublic_spec; reflexivity|].
    unfold Results, publicSelection; cbn [eng withRes set_res res set_me
      NewPGPKeyExportEngine qtype arg keybase1.Options keybase1.Query
      keybase1.ExactMatch GetActivePgpKeys app].
    rewrite filter_repeat by reflexivity.
    rewrite length_map, repeat_length. reflexivity.
Qed.

(** C7, as the code has it. A failure of the armoring of the secret key is
    returned unchanged as the outcome of the run.  A failure of the public
    encoding of a record is not: the loop leaves that record out, and the
    public export succeeds. *)
Theorem encoding_failure_outcome ctx m u :
  qtype (eng m) <> unset ->
  LoadMe {| PublicKeyOptional := true |} = (u, None) ->
  (keybase1.Secret (arg (eng m)) = true ->
   forall key skb fp raw armored err,
     storeAnswer ctx (set_me u (eng m)) = (Some key, Some skb, None) ->
     GenericKey_GetFingerprintP key = Some fp ->
     isPgpKeyBundle key = true ->
     RawUnlockedKey skb = Some raw ->
     PgpKeyRawToArmored raw true = (armored, Some err) ->
     exists m', Run ctx m = Returned (Some err) m') /\
  (keybase1.Secret (arg (eng m)) = false ->
   u <> None ->
   (exists m', Run ctx m = Returned None m') /\
   (forall k m0, encodes k = false -> exportPublic_body k m0 = Returned tt m0)).
Proof.
  intros Hq Hl. split.
  - intros Hs key skb fp raw armored err Hst Hfp Hpgp Hraw Harm.
    rewrite (Run_secret _ _ _ Hq Hs Hl).
    rewrite (exportSecret_armor ctx (loaded u m) _ _ _ _ _ _ Hst Hfp Hpgp Hraw Harm).
    eexists; reflexivity.
  - intros Hs Hu. destruct u as [u|]; [|congruence]. split.
    + eexists. apply (Run_public _ _ _ Hq Hs Hl).
    + intros k m0 Hk. rewrite exportPublic_body_spec, publicSelection_single.
      unfold exported. rewrite Hk, andb_false_r. cbn [andb].
      rewrite app_nil_r, withRes_same. reflexivity.
Qed.

(** C8. A run that returns an error (configuration, identity load, unlock
    other than no-secret-key, bad key, secret encoding) has called each
    collaborator at most once and leaves the result sequence empty. *)
Theorem failed_run_has_no_partial_result ctx m err m' :
  Run ctx m = Returned (Some err) m' ->
  Results (eng m) = [] ->
  Results (eng m') = [] /\
  ErrorOrigin ctx m err /\
  calls isLoadMe (trace m') <= calls isLoadMe (trace m) + 1 /\
  calls isGetSecretKeyWithPrompt (trace m') <=
    calls isGetSecretKeyWithPrompt (trace m) + 1 /\
  calls isPgpKeyRawToArmored (trace m') <=
    calls isPgpKeyRawToArmored (trace m) + 1.
Proof.
  intros H Hres.
  destruct (Run_failed _ _ _ _ H) as (E & Ho & evs & Etr & H1 & H2 & H3).
  unfold Results in *. rewrite E, Hres, Etr, !calls_app.
  repeat split; try assumption; lia.
Qed.

(** C9. Secret export, the unlocked key passing the three checks and the
    armoring succeeding: one [KeyInfo] is appended, made of the string
    form of the fingerprint, the armored secret key and an empty
    description. *)
Theorem secret_export_appends_one ctx m u key skb fp raw armored :
  qtype (eng m) <> unset ->
  keybase1.Secret (arg (eng m)) = true ->
  LoadMe {| PublicKeyOptional := true |} = (u, None) ->
  storeAnswer ctx (set_me u (eng m)) = (Some key, Some skb, None) ->
  GenericKey_GetFingerprintP key = Some fp ->
  isPgpKeyBundle key = true ->
  RawUnlockedKey skb = Some raw ->
  PgpKeyRawToArmored raw true = (armored, None) ->
  exists m',
    Run ctx m = Returned None m' /\
    Results (eng m') =
      Results (eng m) ++
      [ {| keybase1.Fingerprint := PgpFingerprint_String fp;
           keybase1.Key := armored;
           keybase1.Desc := "" |} ].
Proof.
  intros Hq Hs Hl Hst Hfp Hpgp Hraw Harm.
  rewrite (Run_secret _ _ _ Hq Hs Hl).
  rewrite (exportSecret_armor ctx (loaded u m) _ _ _ _ _ _ Hst Hfp Hpgp Hraw Harm).
  eexists; split; reflexivity.
Qed.

(** C10. The public path returns nil whatever the identity holds: on the
    loaded machine [exportPublic] returns no error, and so does the run. *)
Theorem public_export_never_fails ctx m u :
  qtype (eng m) <> unset ->
  keybase1.Secret (arg (eng m)) = false ->
  LoadMe {| PublicKeyOptional := true |} = (Some u, None) ->
  (exists m', exportPublic (loaded (Some u) m) = Returned None m') /\
  (exists m', Run ctx m = Returned None m').
Proof.
  intros Hq Hs Hl. split; eexists.
  - apply (exportPublic_spec (loaded (Some u) m) u). reflexivity.
  - apply (Run_public _ _ _ Hq Hs Hl).
Qed.

End Properties.

(** * Whole runs *)
Section RunProperties.

Context {T : LibkbTypes} {O : LibkbOps}.

Implicit Types (m : Machine) (e : PGPKeyExportEngine) (k : PgpKeyBundle).

Lemma exportPublic_nil_user m :
  me (eng m) = None -> exportPublic m = Panicked m.
Proof.
  intros H. unfold exportPublic, bind, get_engine. rewrite H. reflexivity.
Qed.

(** [Run] always ends in one of the five ways. *)
Lemma Run_outcome ctx m : RunOutcome ctx m (Run ctx m).
Proof.
  destruct (qtype (eng m)) eqn:Hq.
  1: { rewrite (Run_unset _ _ Hq). apply RunNotConfigured; assumption. }
  all: assert (Hq' : qtype (eng m) <> unset) by (rewrite Hq; discriminate);
    clear Hq;
    destruct (LoadMe {| PublicKeyOptional := true |}) as [u [lerr|]] eqn:Hl.
  all: try (rewrite (Run_load_failed _ _ _ _ Hq' Hl);
            apply RunLoadFailed; assumption).
  all: destruct (keybase1.Secret (arg (eng m))) eqn:Hs.
  all: try (rewrite (Run_secret _ _ _ Hq' Hs Hl);
            eapply RunSecret; try eassumption; apply exportSecret_outcome).
  all: destruct u as [u|].
  all: try (rewrite (Run_public _ _ _ Hq' Hs Hl); apply RunPublic; assumption).
  all: rewrite (Run_export _ _ _ Hq' Hl), Hs;
    rewrite (exportPublic_nil_user (loaded None m) eq_refl);
    apply RunPublicNilUser; assumption.
Qed.

Ltac run_outcomes ctx m :=
  let Ho := fresh "Ho" in
  let Hs := fresh "Hsecret" in
  pose proof (Run_outcome ctx m) as Ho;
  destruct Ho as [Hq | u err Hq Hl | u Hq Hsec Hl | Hq Hsec Hl | u r Hq Hsec Hl Hs];
  [ | | | | destruct Hs ];
  cbn [leave finalMachine eng trace withEvents withRes withMe loaded
       set_me set_res res me arg qtype Contextified].

Ltac run_monad :=
  repeat (progress (unfold bind, get_engine, modify_engine, emit, ret, panic,
                      pushRes, call_GetSecretKeyWithPrompt,
                      call_PgpKeyRawToArmored;
                    cbn beta iota; cbn [eng trace])).

(** The secret path does not read the selector. *)
Lemma exportSecret_retag ctx q m :
  exportSecret ctx (withQtype q m) = retag q (exportSecret ctx m).
Proof.
  unfold exportSecret, withQtype; run_monad.
  unfold G; cbn [eng trace set_qtype Contextified arg me res].
  destruct (GetSecretKeyWithPrompt _ _ _ _ _) as [[key skb] [err|]].
  { destruct (isNoSecretKeyError err); reflexivity. }
  destruct key as [key|]; [|reflexivity].
  destruct (GenericKey_GetFingerprintP key) as [fp|]; [|reflexivity].
  destruct (isPgpKeyBundle key); [|reflexivity]. cbn [negb].
  destruct skb as [skb|]; [|reflexivity].
  destruct (RawUnlockedKey skb) as [raw|]; [|reflexivity].
  cbn [eng trace].
  destruct (PgpKeyRawToArmored raw true) as [armored [err|]]; reflexivity.
Qed.

(** X1. An engine built by any of the three constructors passes the
    selector check: its run logs its entry and then calls the identity
    loader, once. *)
Theorem constructors_reach_loader ctx (g : GlobalContext) (tr : list Event) :
  (forall a, reachesLoader ctx (NewPGPKeyExportEngine a g) tr) /\
  (forall a, reachesLoader ctx (NewPGPKeyExportByKIDEngine a g) tr) /\
  (forall a, reachesLoader ctx (NewPGPKeyExportByFingerprintEngine a g) tr).
Proof.
  assert (R : forall m, qtype (eng m) <> unset ->
                        reachesLoader ctx (eng m) (trace m)).
  { intros m Hne. unfold reachesLoader.
    replace {| eng := eng m; trace := trace m |} with m by (destruct m; reflexivity).
    run_outcomes ctx m; try congruence;
      repeat rewrite <- app_assoc; cbn [app];
      eexists; (split; [reflexivity|]); unfold calls; simpl; reflexivity. }
  repeat split; intros a.
  - apply (R {| eng := NewPGPKeyExportEngine a g; trace := tr |}). discriminate.
  - apply (R {| eng := NewPGPKeyExportByKIDEngine a g; trace := tr |}). discriminate.
  - apply (R {| eng := NewPGPKeyExportByFingerprintEngine a g; trace := tr |}).
    discriminate.
Qed.

(** X2. When the identity loader fails, the run returns its error
    unchanged, whatever the secret flag: the user it returned is stored in
    [e.me], the results are untouched, and neither the key store nor the
    armoring is called. *)
Theorem load_failure_propagates ctx m u err :
  qtype (eng m) <> unset ->
  LoadMe {| PublicKeyOptional := true |} = (u, Some err) ->
  exists m',
    Run ctx m = Returned (Some err) m' /\
    me (eng m') = u /\
    Results (eng m') = Results (eng m) /\
    calls isGetSecretKeyWithPrompt (trace m') =
      calls isGetSecretKeyWithPrompt (trace m) /\
    calls isPgpKeyRawToArmored (trace m') =
      calls isPgpKeyRawToArmored (trace m).
Proof.
  intros Hq Hl. rewrite (Run_load_failed _ _ _ _ Hq Hl).
  eexists; split; [reflexivity|].
  cbn [withMe withEvents eng trace set_me me]. rewrite !calls_app.
  repeat split; unfold calls; simpl; lia.
Qed.

(** X3. A run with the secret flag off never calls the key store nor the
    armoring, however it ends. *)
Theorem public_export_never_prompts ctx m :
  keybase1.Secret (arg (eng m)) = false ->
  calls isGetSecretKeyWithPrompt (trace (finalMachine (Run ctx m))) =
    calls isGetSecretKeyWithPrompt (trace m) /\
  calls isPgpKeyRawToArmored (trace (finalMachine (Run ctx m))) =
    calls isPgpKeyRawToArmored (trace m).
Proof.
  intros Hpub.
  run_outcomes ctx m; try congruence;
    rewrite !calls_app; unfold calls; simpl; lia.
Qed.

(** X4. The secret path does not depend on the selector: between two set
    selectors, the run of a secret export differs by the stored selector
    only. *)
Theorem secret_export_ignores_selector ctx m q :
  qtype (eng m) <> unset ->
  q <> unset ->
  keybase1.Secret (arg (eng m)) = true ->
  Run ctx (withQtype q m) = retag q (Run ctx m).
Proof.
  intros Hq Hq' Hs.
  destruct (LoadMe {| PublicKeyOptional := true |}) as [u [lerr|]] eqn:Hl.
  - rewrite (Run_load_failed ctx (withQtype q m) u lerr Hq' Hl).
    rewrite (Run_load_failed ctx m u lerr Hq Hl). reflexivity.
  - rewrite (Run_secret ctx (withQtype q m) u Hq' Hs Hl).
    rewrite (Run_secret ctx m u Hq Hs Hl).
    change (loaded u (withQtype q m)) with (withQtype q (loaded u m)).
    rewrite exportSecret_retag.
    destruct (exportSecret ctx (loaded u m)); reflexivity.
Qed.

(** X5. On the secret path, once the identity loader has returned without
    error, the key store is called exactly once, whatever follows: with the
    user the loader returned (nil included), the PGP key type, the pattern
    and exactness flag of the query, and the reason "key export". *)
Theorem secret_export_calls_store_once ctx m u :
  qtype (eng m) <> unset ->
  keybase1.Secret (arg (eng m)) = true ->
  LoadMe {| PublicKeyOptional := true |} = (u, None) ->
  calls isGetSecretKeyWithPrompt (trace (finalMachine (Run ctx m))) =
    calls isGetSecretKeyWithPrompt (trace m) + 1 /\
  In (storeCall u (eng m)) (trace (finalMachine (Run ctx m))).
Proof.
  intros Hq Hs Hl. rewrite (Run_secret _ _ _ Hq Hs Hl).
  destruct (exportSecret_outcome ctx (loaded u m));
    cbn [leave finalMachine eng trace withEvents withRes withMe loaded];
    rewrite !calls_app, !in_app_iff;
    (split; [unfold calls; simpl; lia|]);
    unfold storeCall, evStore, secretKeyArgOf; cbn [In set_me me arg]; tauto.
Qed.

(** X6. A run only appends to the results: what the engine held before is
    a prefix of what it holds after, however the run ends. *)
Theorem results_append_only ctx m :
  exists added,
    Results (eng (finalMachine (Run ctx m))) = Results (eng m) ++ added.
Proof.
  unfold Results.
  run_outcomes ctx m;
    first [ exists []; rewrite app_nil_r; reflexivity
          | eexists; reflexivity ].
Qed.

(** X7. A run leaves the global context, the query and the selector of the
    engine as they were; [e.me] is what the identity loader returned, or
    what it was when the selector check failed. *)
Theorem run_preserves_configuration ctx m :
  let e' := eng (finalMachine (Run ctx m)) in
  Contextified e' = Contextified (eng m) /\
  arg e' = arg (eng m) /\
  qtype e' = qtype (eng m) /\
  me e' =
    match qtype (eng m) with
    | unset => me (eng m)
    | _ => fst (LoadMe {| PublicKeyOptional := true |})
    end.
Proof.
  cbv zeta.
  run_outcomes ctx m; try rewrite Hl; cbn [fst];
    repeat split;
    try (rewrite Hq; reflexivity);
    destruct (qtype (eng m)); congruence.
Qed.

(** X8. Every run writes exactly two log lines, the first and the last
    event it adds to the trace; the last one reports the error the run
    returns (nil when it panics). *)
Theorem run_logs_bracket ctx m :
  exists mid,
    trace (finalMachine (Run ctx m)) =
      trace m ++ evEnter :: mid ++ [evLeave (returnedError (Run ctx m))] /\
    calls isDebug mid = 0.
Proof.
  run_outcomes ctx m; cbn [returnedError];
    try (destruct (isNoSecretKeyError err); cbn [returnedError]);
    repeat rewrite <- app_assoc; cbn [app];
    first [ exists []; split; reflexivity
          | exists [evLoad]; split; reflexivity
          | eexists [evLoad; _]; split; reflexivity
          | eexists [evLoad; _; _]; split; reflexivity ].
Qed.

(** X9. [exportPublic] on an engine whose selector is unset: with a query
    that is not empty no case of the switch applies, nothing matches and
    nothing is appended. *)
Theorem exportPublic_unset_selector m u :
  me (eng m) = Some u ->
  qtype (eng m) = unset ->
  keybase1.Query (arg (eng m)) <> "" ->
  exportPublic m = Returned None m.
Proof.
  intros Hme Hq Hquery. rewrite (exportPublic_spec m u Hme), Hq.
  assert (E : forall keys,
             publicSelection unset (keybase1.Query (arg (eng m)))
               (keybase1.ExactMatch (arg (eng m))) keys = []).
  { intros keys. unfold publicSelection.
    induction keys as [|k keys IH]; [reflexivity|]. cbn [filter].
    unfold exported at 1, QueryMatcher.
    destruct (String.eqb_spec (keybase1.Query (arg (eng m))) ""); [contradiction|].
    rewrite andb_false_r. exact IH. }
  rewrite E, app_nil_r, withRes_same. reflexivity.
Qed.

(** X10. The engine does not reset its results: a second public run on the
    same engine appends the selection once more. *)
Theorem public_export_accumulates ctx m u :
  qtype (eng m) <> unset ->
  keybase1.Secret (arg (eng m)) = false ->
  LoadMe {| PublicKeyOptional := true |} = (Some u, None) ->
  let selection :=
    publicSelection (qtype (eng m)) (keybase1.Query (arg (eng m)))
      (keybase1.ExactMatch (arg (eng m))) (GetActivePgpKeys u false) in
  exists m1 m2,
    Run ctx m = Returned None m1 /\
    Run ctx m1 = Returned None m2 /\
    Results (eng m1) = Results (eng m) ++ selection /\
    Results (eng m2) = Results (eng m) ++ selection ++ selection.
Proof.
  intros Hq Hs Hl selection.
  eexists. eexists. split; [apply (Run_public _ _ _ Hq Hs Hl)|].
  split; [apply (Run_public ctx _ u); assumption|].
  unfold Results; cbn [eng withEvents withRes loaded withMe set_res set_me res
                       qtype arg].
  fold selection. rewrite <- app_assoc. split; reflexivity.
Qed.

(** X11. The armoring is called only on the raw representation of a key
    that passed the three checks: a run that calls it has the secret flag
    set, a loaded identity, and a store answer with a fingerprint, of the
    PGP family, whose raw representation is the argument of the call. *)
Theorem armoring_only_after_checks ctx m :
  calls isPgpKeyRawToArmored (trace (finalMachine (Run ctx m))) <>
    calls isPgpKeyRawToArmored (trace m) ->
  exists u key skb fp raw,
    keybase1.Secret (arg (eng m)) = true /\
    LoadMe {| PublicKeyOptional := true |} = (u, None) /\
    storeAnswer ctx (set_me u (eng m)) = (Some key, Some skb, None) /\
    GenericKey_GetFingerprintP key = Some fp /\
    isPgpKeyBundle key = true /\
    RawUnlockedKey skb = Some raw /\
    calls isPgpKeyRawToArmored (trace (finalMachine (Run ctx m))) =
      calls isPgpKeyRawToArmored (trace m) + 1 /\
    In (evArmor raw) (trace (finalMachine (Run ctx m))).
Proof.
  run_outcomes ctx m; rewrite !calls_app; intros Hcalls;
    try (exfalso; apply Hcalls; unfold calls; simpl; lia).
  all: exists u, key, skb, fp, raw; repeat split; try assumption;
    try (unfold calls; simpl; lia);
    rewrite !in_app_iff; cbn [In]; tauto.
Qed.

End RunProperties.

(** * The properties on the concrete world *)
Section Scenarios.

Import Fixture Scenario.

#[local] Existing Instance types.

(** The scenarios of the specification. *)

Example scenario_fingerprint_prefix :
  let r := Run (T := types) (O := world userAB armorOk) ctx
             (start (byFingerprint (query false "AAAA" false) noStore)) in
  errorOf r = Some None /\ resultsOf r = [infoA].
Proof. vm_compute. split; reflexivity. Qed.

Example scenario_empty_query :
  let r := Run (T := types) (O := world userAB armorOk) ctx
             (start (byQuery (query false "" false) noStore)) in
  errorOf r = Some None /\ resultsOf r = [infoA; infoB].
Proof. vm_compute. split; reflexivity. Qed.

Example scenario_no_secret_key :
  let r := Run (T := types) (O := world userAB armorOk) ctx
             (start (byQuery (query true "AAAA" false) noStore)) in
  errorOf r = Some None /\ resultsOf r = [].
Proof. vm_compute. split; reflexivity. Qed.

Example scenario_secret_without_fingerprint :
  let r := Run (T := types) (O := world userAB armorOk) ctx
             (start (byQuery (query true "AAAA" false)
                       (store (Some (GK_other None), Some unlockedA, None)))) in
  errorOf r = Some (Some (BadKeyError "no fingerprint found")) /\ resultsOf r = [].
Proof. vm_compute. split; reflexivity. Qed.

Example scenario_key_id_exact :
  let r := Run (T := types) (O := world userMixed armorOk) ctx
             (start (byKID (query false "K2" true) noStore)) in
  errorOf r = Some None /\ resultsOf r = [infoB].
Proof. vm_compute. split; reflexivity. Qed.

Example scenario_secret_export :
  let r := Run (T := types) (O := world userAB armorOk) ctx
             (start (byQuery (query true "AAAA" false) storeA)) in
  errorOf r = Some None /\ resultsOf r = [infoSecretA].
Proof. vm_compute. split; reflexivity. Qed.

(** A nil key with a nil error makes the method call on it panic; the
    deferred log line is still written. *)
Example scenario_nil_key_panics :
  let r := Run (T := types) (O := world userAB armorOk) ctx
             (start (byQuery (query true "AAAA" false) (store (None, None, None)))) in
  errorOf r = None /\ resultsOf r = [] /\
  List.length (trace (finalMachine r)) = 4.
Proof. vm_compute. repeat split; reflexivity. Qed.

End Scenarios.

(** * The claims at concrete inputs *)
Section Instances.

Import Fixture Scenario.

#[local] Existing Instance types.

(** C1 on an identity of four records, one without fingerprint and one
    that does not encode, selected by fingerprint. *)
Lemma public_export_selection_witness :
  exists m',
    Run (T := types) (O := world userMixed armorOk) ctx
      (start (byFingerprint (query false "AAAA" false) noStore))
    = Returned None m' /\
    Results (eng m') = [infoA].
Proof.
  pose proof (public_export_selection (T := types) (O := world userMixed armorOk) ctx
                (start (byFingerprint (query false "AAAA" false) noStore))
                userMixed) as H.
  cbv zeta in H.
  destruct H as (m' & HR & Hres & _);
    [discriminate | reflexivity | reflexivity | reflexivity |].
  exists m'. split; [exact HR | rewrite Hres; reflexivity].
Defined.

(** C2 on a store without secret key, and on a cancelled prompt. *)
Lemma secret_export_store_error_witness :
  (exists m',
      Run (T := types) (O := world userAB armorOk) ctx
        (start (byQuery (query true "AAAA" false) noStore))
      = Returned None m' /\ Results (eng m') = []) /\
  (exists m',
      Run (T := types) (O := world userAB armorOk) ctx
        (start (byQuery (query true "AAAA" false)
                  (store (None, None, Some cancelled))))
      = Returned (Some cancelled) m' /\ Results (eng m') = []).
Proof.
  split.
  - apply (secret_export_store_error (T := types) (O := world userAB armorOk) ctx
             (start (byQuery (query true "AAAA" false) noStore))
             (Some userAB) None None NoSecretKeyError);
      [discriminate | reflexivity | reflexivity | reflexivity | reflexivity].
  - apply (secret_export_store_error (T := types) (O := world userAB armorOk) ctx
             (start (byQuery (query true "AAAA" false)
                       (store (None, None, Some cancelled))))
             (Some userAB) None None cancelled);
      [discriminate | reflexivity | reflexivity | reflexivity | reflexivity].
Defined.

(** C3 on a key without fingerprint, on a key of another family, and on
    a key whose raw representation is missing. *)
Lemma secret_export_bad_key_witness :
  (exists m',
      Run (T := types) (O := world userAB armorOk) ctx
        (start (byQuery (query true "AAAA" false)
                  (store (Some (GK_other None), Some unlockedA, None))))
      = Returned (Some (BadKeyError "no fingerprint found")) m' /\
      Results (eng m') = []) /\
  (exists m',
      Run (T := types) (O := world userAB armorOk) ctx
        (start (byQuery (query true "AAAA" false)
                  (store (Some (otherKey), Some unlockedA, None))))
      = Returned (Some (BadKeyError "Expected a PGP key")) m' /\
      Results (eng m') = []) /\
  (exists m',
      Run (T := types) (O := world userAB armorOk) ctx
        (start (byQuery (query true "AAAA" false)
                  (store (Some (GK_PgpKeyBundle keyA), Some unlockedNoRaw, None))))
      = Returned (Some (BadKeyError "can't get raw representation of key")) m' /\
      Results (eng m') = []).
Proof.
  split; [|split].
  - destruct (secret_export_bad_key (T := types) (O := world userAB armorOk) ctx
                (start (byQuery (query true "AAAA" false)
                          (store (Some (GK_other None), Some unlockedA, None))))
                (Some userAB) (GK_other None) (Some unlockedA) msgNoFingerprint)
      as (m' & HR & _ & Hres & _);
      [discriminate | reflexivity | reflexivity | reflexivity
      | apply FailsNoFingerprint; reflexivity |].
    exists m'. split; [exact HR | exact Hres].
  - destruct (secret_export_bad_key (T := types) (O := world userAB armorOk) ctx
                (start (byQuery (query true "AAAA" false)
                          (store (Some (otherKey),
                                  Some unlockedA, None))))
                (Some userAB) (otherKey) (Some unlockedA)
                msgNotPgp)
      as (m' & HR & _ & Hres & _);
      [discriminate | reflexivity | reflexivity | reflexivity
      | eapply FailsNotPgp; reflexivity |].
    exists m'. split; [exact HR | exact Hres].
  - destruct (secret_export_bad_key (T := types) (O := world userAB armorOk) ctx
                (start (byQuery (query true "AAAA" false)
                          (store (Some (GK_PgpKeyBundle keyA),
                                  Some unlockedNoRaw, None))))
                (Some userAB) (GK_PgpKeyBundle keyA) (Some unlockedNoRaw)
                msgNoRaw)
      as (m' & HR & _ & Hres & _);
      [discriminate | reflexivity | reflexivity | reflexivity
      | eapply FailsNoRaw; reflexivity |].
    exists m'. split; [exact HR | exact Hres].
Defined.

(** C4 on an engine built without selector. *)
Lemma unset_selector_fails_fast_witness :
  exists m',
    Run (T := types) (O := world userAB armorOk) ctx (start notConfigured)
    = Returned (Some errNotSet) m' /\
    calls isLoadMe (trace m') = 0 /\
    eng m' = notConfigured.
Proof.
  destruct (unset_selector_fails_fast (T := types) (O := world userAB armorOk) ctx
              (start notConfigured))
    as (m' & HR & _ & Hload & _ & _ & Heng & _);
    [reflexivity | reflexivity |].
  exists m'. split; [exact HR|]. split; [exact Hload | exact Heng].
Defined.

(** C5 on the identity of four records and the three selectors. *)
Lemma empty_query_exports_all_witness :
  exists m',
    Run (T := types) (O := world userMixed armorOk) ctx
      (start (byKID (query false "" true) noStore))
    = Returned None m' /\
    Results (eng m') = [infoA; infoB].
Proof.
  destruct (empty_query_exports_all (T := types) (O := world userMixed armorOk) ctx
              (start (byKID (query false "" true) noStore)) userMixed)
    as (_ & _ & m' & HR & Hres);
    [reflexivity | discriminate | reflexivity | reflexivity | reflexivity |].
  exists m'. split; [exact HR | rewrite Hres; reflexivity].
Defined.

(** C6 on a store that unlocks key A, with five public results asked. *)
Lemma secret_export_at_most_one_witness :
  List.length
    (resultsOf (Run (T := types) (O := world userAB armorOk) ctx
                  (start (byQuery (query true "AAAA" false) storeA)))) <= 1 /\
  exists u m',
    exportPublic (T := types) (O := world userAB armorOk)
      (start (set_me (Some u) (byQuery (query false "" false) storeA)))
    = Returned None m' /\
    List.length (Results (eng m')) = 5.
Proof.
  destruct (secret_export_at_most_one (T := types) (O := world userAB armorOk) ctx
              (start (byQuery (query true "AAAA" false) storeA))
              5 ("AAAA1111" : @PgpFingerprint types) ("K1" : @KID types))
    as (Hlen & u & m' & HR & Hn);
    [reflexivity | reflexivity |].
  split.
  - unfold resultsOf. destruct Hlen as [E | E]; rewrite E; lia.
  - exists u, m'. split; [exact HR | exact Hn].
Defined.

(** C7, as amended, on an armoring that fails and on a record that does
    not encode. *)
Lemma encoding_failure_outcome_witness :
  (exists m',
      Run (T := types) (O := world userAB armorFails) ctx
        (start (byQuery (query true "AAAA" false) storeA))
      = Returned (Some (CollaboratorError "armor failed")) m') /\
  (exists m',
      Run (T := types) (O := world userBroken armorOk) ctx
        (start (byQuery (query false "" false) noStore))
      = Returned None m').
Proof.
  split.
  - apply (proj1 (encoding_failure_outcome (T := types) (O := world userAB armorFails) ctx
                    (start (byQuery (query true "AAAA" false) storeA))
                    (Some userAB)
                    ltac:(discriminate) eq_refl)
             eq_refl (GK_PgpKeyBundle keyA) unlockedA "AAAA1111" rawKey ""
             (CollaboratorError "armor failed"));
      reflexivity.
  - apply (proj2 (encoding_failure_outcome (T := types) (O := world userBroken armorOk) ctx
                    (start (byQuery (query false "" false) noStore))
                    (Some userBroken)
                    ltac:(discriminate) eq_refl)
             eq_refl ltac:(discriminate)).
Defined.

(** C8 on a cancelled prompt. *)
Lemma failed_run_has_no_partial_result_witness :
  let r := Run (T := types) (O := world userAB armorOk) ctx
             (start (byQuery (query true "AAAA" false)
                       (store (None, None, Some cancelled)))) in
  errorOf r = Some (Some cancelled) /\
  resultsOf r = [] /\
  calls isGetSecretKeyWithPrompt (trace (finalMachine r)) <= 1.
Proof.
  intros r.
  destruct (failed_run_has_no_partial_result (T := types) (O := world userAB armorOk) ctx
              (start (byQuery (query true "AAAA" false)
                        (store (None, None, Some cancelled))))
              cancelled (finalMachine r))
    as (Hres & _ & _ & Hstore & _);
    [reflexivity | reflexivity |].
  split; [reflexivity|]. split; [exact Hres | exact Hstore].
Defined.

(** C9 on a store that unlocks key A. *)
Lemma secret_export_appends_one_witness :
  exists m',
    Run (T := types) (O := world userAB armorOk) ctx
      (start (byQuery (query true "AAAA" false) storeA))
    = Returned None m' /\
    Results (eng m') = [infoSecretA].
Proof.
  apply (secret_export_appends_one (T := types) (O := world userAB armorOk) ctx
           (start (byQuery (query true "AAAA" false) storeA))
           (Some userAB) (GK_PgpKeyBundle keyA) unlockedA "AAAA1111" rawKey
           "-----SECRET-----");
    try reflexivity; discriminate.
Defined.

(** C10 on an identity none of whose records can be exported. *)
Lemma public_export_never_fails_witness :
  exists m',
    Run (T := types) (O := world userBroken armorOk) ctx
      (start (byQuery (query false "CCCC" false) noStore))
    = Returned None m'.
Proof.
  apply (public_export_never_fails (T := types) (O := world userBroken armorOk) ctx
           (start (byQuery (query false "CCCC" false) noStore)) userBroken);
    try reflexivity; discriminate.
Defined.

(** C7 as the specification states it does not hold: the only record of
    the identity fails to encode, and the public export returns nil, with
    no result, instead of that error. *)
Lemma public_encoding_failure_not_propagated :
  let r := Run (T := types) (O := world userBroken armorOk) ctx
             (start (byQuery (query false "" false) noStore)) in
  GetActivePgpKeys userBroken false = [keyBroken] /\
  snd (Encode keyBroken) = Some (CollaboratorError "encode failed") /\
  errorOf r = Some None /\
  errorOf r <> Some (Some (CollaboratorError "encode failed")) /\
  resultsOf r = [].
Proof.
  vm_compute. repeat split; try reflexivity. discriminate.
Qed.

End Instances.

(** * Whole runs at concrete inputs *)
Section RunInstances.

Import Fixture Scenario.

#[local] Existing Instance types.

(** X2 on a loader that fails, for a secret export. *)
Lemma load_failure_propagates_witness :
  exists m',
    Run (T := types)
      (O := ops (None, Some (CollaboratorError "load failed")) armorOk) ctx
      (start (byQuery (query true "AAAA" false) storeA))
    = Returned (Some (CollaboratorError "load failed")) m' /\
    Results (eng m') = [] /\
    calls isGetSecretKeyWithPrompt (trace m') = 0.
Proof.
  destruct (load_failure_propagates (T := types)
              (O := ops (None, Some (CollaboratorError "load failed")) armorOk)
              ctx (start (byQuery (query true "AAAA" false) storeA))
              None (CollaboratorError "load failed"))
    as (m' & HR & _ & Hres & Hstore & _);
    [discriminate | reflexivity |].
  exists m'. split; [exact HR|]. split; [exact Hres | exact Hstore].
Defined.

(** X3 on the public export of the two keys. *)
Lemma public_export_never_prompts_witness :
  calls isGetSecretKeyWithPrompt
    (trace (finalMachine
              (Run (T := types) (O := world userAB armorOk) ctx
                 (start (byQuery (query false "" false) storeA))))) = 0.
Proof.
  exact (proj1 (public_export_never_prompts (T := types)
                  (O := world userAB armorOk) ctx
                  (start (byQuery (query false "" false) storeA)) eq_refl)).
Defined.

(** X4 on the same secret export asked by query and by fingerprint. *)
Lemma secret_export_ignores_selector_witness :
  Run (T := types) (O := world userAB armorOk) ctx
    (start (byFingerprint (query true "AAAA" false) storeA))
  = retag fingerprint
      (Run (T := types) (O := world userAB armorOk) ctx
         (start (byQuery (query true "AAAA" false) storeA))).
Proof.
  apply (secret_export_ignores_selector (T := types) (O := world userAB armorOk)
           ctx (start (byQuery (query true "AAAA" false) storeA)) fingerprint);
    [discriminate | discriminate | reflexivity].
Defined.

(** X5 on a store without secret key. *)
Lemma secret_export_calls_store_once_witness :
  let r := Run (T := types) (O := world userAB armorOk) ctx
             (start (byQuery (query true "AAAA" true) noStore)) in
  calls isGetSecretKeyWithPrompt (trace (finalMachine r)) = 1 /\
  In (EvGetSecretKeyWithPrompt
        {| Me := Some userAB; KeyType := PGPKeyType;
           KeyQuery := "AAAA"; ExactMatch := true |} "key export")
     (trace (finalMachine r)).
Proof.
  exact (secret_export_calls_store_once (T := types) (O := world userAB armorOk)
           ctx (start (byQuery (query true "AAAA" true) noStore)) (Some userAB)
           ltac:(discriminate) eq_refl eq_refl).
Defined.

(** X9 on an engine without selector, loaded, with a query. *)
Lemma exportPublic_unset_selector_witness :
  let m := start {| Contextified := noStore; arg := query false "AAAA" false;
                    qtype := unset; res := []; me := Some userAB |} in
  exportPublic (T := types) (O := world userAB armorOk) m = Returned None m.
Proof.
  exact (exportPublic_unset_selector (T := types) (O := world userAB armorOk)
           (start {| Contextified := noStore; arg := query false "AAAA" false;
                     qtype := unset; res := []; me := Some userAB |})
           userAB eq_refl eq_refl ltac:(discriminate)).
Defined.

(** X10 on the public export of the two keys, run twice. *)
Lemma public_export_accumulates_witness :
  exists m1 m2,
    Run (T := types) (O := world userAB armorOk) ctx
      (start (byQuery (query false "" false) noStore)) = Returned None m1 /\
    Run (T := types) (O := world userAB armorOk) ctx m1 = Returned None m2 /\
    Results (eng m2) = [infoA; infoB; infoA; infoB].
Proof.
  pose proof (public_export_accumulates (T := types) (O := world userAB armorOk)
                ctx (start (byQuery (query false "" false) noStore)) userAB) as H.
  cbv zeta in H.
  destruct H as (m1 & m2 & H1 & H2 & _ & Hres);
    [discriminate | reflexivity | reflexivity |].
  exists m1, m2. split; [exact H1|]. split; [exact H2|].
  rewrite Hres. reflexivity.
Defined.

(** X11 on a store that unlocks key A. *)
Lemma armoring_only_after_checks_witness :
  exists raw,
    In (evArmor raw)
      (trace (finalMachine
                (Run (T := types) (O := world userAB armorOk) ctx
                   (start (byQuery (query true "AAAA" false) storeA))))).
Proof.
  destruct (armoring_only_after_checks (T := types) (O := world userAB armorOk)
              ctx (start (byQuery (query true "AAAA" false) storeA)))
    as (u & key & skb & fp & raw & _ & _ & _ & _ & _ & _ & _ & Hin).
  - vm_compute. discriminate.
  - exists raw. exact Hin.
Defined.

End RunInstances.
